(** * EGTS transport-layer packet header: the encoder of [egts_pkg.go]

    A shallow embedding of [EgtsPkgHeader], [EgtsPkgHeader.ToBytes] and
    [EgtsPkgHeader.CalcCRC8], followed by the properties of the encoder.

    Unsigned machine integers ([byte], [uint8], [uint16]) are values of [N];
    the range of each Go type is recorded by [wf_header].  A byte slice is a
    [list N].  The receiver [*EgtsPkgHeader], which [CalcCRC8] mutates, is the
    state of a small state-and-error monad. *)

From Stdlib Require Import NArith PeanoNat List String Ascii Bool Lia.
Import ListNotations.

Local Open Scope N_scope.

(** ** Data model *)

(** [type EgtsPkgHeader struct], field for field. *)
Record EgtsPkgHeader : Type := mkHeader {
  PRV : N;   (* byte *)
  SKID : N;  (* byte *)
  PRF : N;   (* uint8 *)
  RTE : N;   (* uint8 *)
  ENA : N;   (* uint8 *)
  CMP : N;   (* uint8 *)
  PR : N;    (* uint8 *)
  HL : N;    (* byte *)
  HE : N;    (* byte *)
  FDL : N;   (* uint16 *)
  PID : N;   (* uint16 *)
  PT : N;    (* byte *)
  PRA : N;   (* uint16 *)
  RCA : N;   (* uint16 *)
  TTL : N;   (* byte *)
  HCS : N    (* byte *)
}.

Definition is_uint8 (v : N) : Prop := v < 256.
Definition is_uint16 (v : N) : Prop := v < 65536.

(** The values a Go variable of type [EgtsPkgHeader] can hold. *)
Record wf_header (h : EgtsPkgHeader) : Prop := mk_wf {
  wf_PRV : is_uint8 (PRV h);
  wf_SKID : is_uint8 (SKID h);
  wf_PRF : is_uint8 (PRF h);
  wf_RTE : is_uint8 (RTE h);
  wf_ENA : is_uint8 (ENA h);
  wf_CMP : is_uint8 (CMP h);
  wf_PR : is_uint8 (PR h);
  wf_HL : is_uint8 (HL h);
  wf_HE : is_uint8 (HE h);
  wf_FDL : is_uint16 (FDL h);
  wf_PID : is_uint16 (PID h);
  wf_PT : is_uint8 (PT h);
  wf_PRA : is_uint16 (PRA h);
  wf_RCA : is_uint16 (RCA h);
  wf_TTL : is_uint8 (TTL h);
  wf_HCS : is_uint8 (HCS h)
}.

(** The assignment [h.HCS = v]. *)
Definition set_HCS (h : EgtsPkgHeader) (v : N) : EgtsPkgHeader :=
  mkHeader (PRV h) (SKID h) (PRF h) (RTE h) (ENA h) (CMP h) (PR h) (HL h)
           (HE h) (FDL h) (PID h) (PT h) (PRA h) (RCA h) (TTL h) v.

(** The assignment [h.HL = v] (used to compare two calls, not by the code). *)
Definition set_HL (h : EgtsPkgHeader) (v : N) : EgtsPkgHeader :=
  mkHeader (PRV h) (SKID h) (PRF h) (RTE h) (ENA h) (CMP h) (PR h) v
           (HE h) (FDL h) (PID h) (PT h) (PRA h) (RCA h) (TTL h) (HCS h).

(** Go's [error] values that this file can produce. *)
Inductive error : Type :=
| InvalidField   (* a bit-field string that is not one byte *)
| WriteFailed.   (* an error of the writer behind [binary.Write] *)

(** ** The receiver as state: a state-and-error monad *)

Definition M (A : Type) : Type := EgtsPkgHeader -> (error + A) * EgtsPkgHeader.

Definition ret {A : Type} (a : A) : M A := fun h => (inr a, h).

Definition bind {A B : Type} (m : M A) (k : A -> M B) : M B :=
  fun h =>
    match m h with
    | (inr a, h') => k a h'
    | (inl e, h') => (inl e, h')
    end.

Notation "x <- m ;; k" := (bind m (fun x => k))
  (at level 61, m at next level, right associativity).
Notation "m ;;; k" := (bind m (fun _ => k))
  (at level 61, right associativity).

(** Reading a field of the receiver, [h.F]. *)
Definition gets (f : EgtsPkgHeader -> N) : M N := fun h => (inr (f h), h).

(** A call whose error is checked by [if err != nil { return result, err }]. *)
Definition checked {A : Type} (r : error + A) : M A := fun h => (r, h).

(** ** [encoding/binary] and [bytes.Buffer] *)

Definition Buffer : Type := list N.

Definition new_Buffer : Buffer := [].

(** The fixed-size values [ToBytes] hands to [binary.Write]. *)
Inductive data : Type :=
| U8 (v : N)
| U16 (v : N).

(** The conversion [byte(v)]. *)
Definition byte_of (v : N) : N := N.land v 255.

(** [binary.LittleEndian.PutUint16]: [b[0] = byte(v)], [b[1] = byte(v >> 8)]. *)
Definition PutUint16 (v : N) : list N := [byte_of v; byte_of (N.shiftr v 8)].

(** [binary.Write(buf, binary.LittleEndian, d)] on a [bytes.Buffer]: the
    bytes of [d] are appended; a [bytes.Buffer] never returns a write error. *)
Definition binary_Write (buf : Buffer) (d : data) : error + Buffer :=
  match d with
  | U8 v => inr (buf ++ [v])
  | U16 v => inr (buf ++ PutUint16 v)
  end.

(** ** [fmt.Sprintf] with the verbs [%02b] and [%01b] *)

(** Binary digits of a positive number, most significant first. *)
Fixpoint pos_digits (p : positive) (acc : string) : string :=
  match p with
  | xH => String "1" acc
  | xO q => pos_digits q (String "0" acc)
  | xI q => pos_digits q (String "1" acc)
  end.

(** The verb [%b] on an unsigned integer. *)
Definition fmt_b (v : N) : string :=
  match v with
  | N0 => "0"%string
  | Npos p => pos_digits p EmptyString
  end.

Fixpoint zeros (n : nat) : string :=
  match n with
  | O => EmptyString
  | S m => String "0" (zeros m)
  end.

(** The verb [%0wb]: at least [w] digits, padded with zeros on the left. *)
Definition fmt_0b (w : nat) (v : N) : string :=
  let d := fmt_b v in (zeros (w - String.length d) ++ d)%string.

(** [fmt.Sprintf("%02b%01b%02b%01b%02b", prf, rte, ena, cmp, pr)]. *)
Definition Sprintf_flags (prf rte ena cmp pr : N) : string :=
  (fmt_0b 2 prf ++ fmt_0b 1 rte ++ fmt_0b 2 ena ++ fmt_0b 1 cmp
   ++ fmt_0b 2 pr)%string.

(** ** The encoder *)

(** [func (h *EgtsPkgHeader) CalcCRC8() error]: stores the constant 202 in
    [h.HCS] and returns [nil]. *)
Definition CalcCRC8 : M unit := fun h => (inr tt, set_HCS h 202).

Section Encoder.

(** [bitsToByte] is called by [ToBytes] and defined outside this source
    file; the encoder is embedded over any implementation of it. *)
Variable bitsToByte : string -> error + N.

(** The body of [ToBytes] up to [result = buf.Bytes()]. *)
Definition ToBytes_body : M Buffer :=
  let buf := new_Buffer in
  v <- gets PRV ;; buf <- checked (binary_Write buf (U8 v)) ;;
  v <- gets SKID ;; buf <- checked (binary_Write buf (U8 v)) ;;
  prf <- gets PRF ;; rte <- gets RTE ;; ena <- gets ENA ;;
  cmp <- gets CMP ;; pr <- gets PR ;;
  let flagsByte := Sprintf_flags prf rte ena cmp pr in
  flagByte <- checked (bitsToByte flagsByte) ;;
  buf <- checked (binary_Write buf (U8 flagByte)) ;;
  v <- gets HL ;; buf <- checked (binary_Write buf (U8 v)) ;;
  v <- gets HE ;; buf <- checked (binary_Write buf (U8 v)) ;;
  v <- gets FDL ;; buf <- checked (binary_Write buf (U16 v)) ;;
  v <- gets PID ;; buf <- checked (binary_Write buf (U16 v)) ;;
  v <- gets PT ;; buf <- checked (binary_Write buf (U8 v)) ;;
  v <- gets PRA ;; buf <- checked (binary_Write buf (U16 v)) ;;
  v <- gets RCA ;; buf <- checked (binary_Write buf (U16 v)) ;;
  v <- gets TTL ;; buf <- checked (binary_Write buf (U8 v)) ;;
  CalcCRC8 ;;;
  v <- gets HCS ;; buf <- checked (binary_Write buf (U8 v)) ;;
  ret buf.

(** [func (h *EgtsPkgHeader) ToBytes() ([]byte, error)]: the returned
    slice, the returned error ([None] is [nil]) and the receiver after the
    call.  Every error return hands back [result], still [[]byte{}]. *)
Definition ToBytes (h : EgtsPkgHeader)
  : (list N * option error) * EgtsPkgHeader :=
  let result : list N := [] in
  match ToBytes_body h with
  | (inr bytes, h') => ((bytes, None), h')
  | (inl err, h') => ((result, Some err), h')
  end.

End Encoder.

(** ** The helper [bitsToByte] *)

(** Value of a string of binary digits, most significant first. *)
Fixpoint parse_bits (s : string) (acc : N) : option N :=
  match s with
  | EmptyString => Some acc
  | String c s' =>
      if Ascii.eqb c "0" then parse_bits s' (2 * acc)
      else if Ascii.eqb c "1" then parse_bits s' (2 * acc + 1)
      else None
  end.

(** Modelled from the spec: [bitsToByte(string) (byte, error)] is called by
    [ToBytes] but its body is not part of the source file.  The specification
    describes bit-field packing as a map from fields of total width exactly 8
    bits to one byte, most significant field first, that fails when a value
    does not fit its declared width; on the string [ToBytes] builds, that is:
    a string of exactly eight binary digits is read most significant bit
    first, and any other string is refused. *)
Definition bitsToByte (s : string) : error + N :=
  if Nat.eqb (String.length s) 8 then
    match parse_bits s 0 with
    | Some v => inr v
    | None => inl InvalidField
    end
  else inl InvalidField.

(** ** Names for parts of the encoder's input and output *)

(** The string [ToBytes] hands to [bitsToByte]. *)
Definition flags_of (h : EgtsPkgHeader) : string :=
  Sprintf_flags (PRF h) (RTE h) (ENA h) (CMP h) (PR h).

(** What [buf] holds when [CalcCRC8] is called, [flagByte] being the byte
    that [bitsToByte] returned. *)
Definition written_before_HCS (flagByte : N) (h : EgtsPkgHeader) : list N :=
  [PRV h; SKID h; flagByte; HL h; HE h] ++ PutUint16 (FDL h)
  ++ PutUint16 (PID h) ++ [PT h] ++ PutUint16 (PRA h) ++ PutUint16 (RCA h)
  ++ [TTL h].

(** A string made of the characters 0 and 1 only. *)
Fixpoint only_bits (s : string) : bool :=
  match s with
  | EmptyString => true
  | String c s' => (Ascii.eqb c "0" || Ascii.eqb c "1") && only_bits s'
  end.

(** The five bit fields each within the width the format gives them. *)
Definition bit_fields_fit (prf rte ena cmp pr : N) : Prop :=
  prf <= 3 /\ rte <= 1 /\ ena <= 3 /\ cmp <= 1 /\ pr <= 3.

(** ** Sample headers *)

(** PRV=1, PID=1, PT=1, HL=11, no routing; the routing fields hold values. *)
Definition hdr_plain : EgtsPkgHeader :=
  mkHeader 1 0 0 0 0 0 0 11 0 3 1 1 100 200 5 0.

(** The same packet with RTE=1 and HL=14. *)
Definition hdr_routed : EgtsPkgHeader :=
  mkHeader 1 0 0 1 0 0 0 14 0 3 1 1 100 200 5 0.

(** [hdr_plain] with another packet identifier. *)
Definition hdr_plain2 : EgtsPkgHeader :=
  mkHeader 1 0 0 0 0 0 0 11 0 3 2 1 100 200 5 0.

(** [hdr_plain] with the priority 4, one more than two bits hold. *)
Definition hdr_pr4 : EgtsPkgHeader :=
  mkHeader 1 0 0 0 0 0 4 11 0 3 1 1 100 200 5 0.

(** [hdr_plain] with a header length that matches no layout. *)
Definition hdr_hl99 : EgtsPkgHeader :=
  mkHeader 1 0 0 0 0 0 0 99 0 3 1 1 100 200 5 0.

(** A header that uses every bit field and the full width of PID. *)
Definition hdr_full : EgtsPkgHeader :=
  mkHeader 1 7 2 1 3 1 2 16 0 513 65535 1 258 772 9 0.

(** ** Proof tactics *)

(** Case split on a number bounded by 1 or by 3. *)
Ltac split_le1 v H :=
  let E := fresh in
  assert (v = 0 \/ v = 1) as [E|E] by (clear - H; lia); subst v; clear H.
Ltac split_le3 v H :=
  let E := fresh in
  assert (v = 0 \/ v = 1 \/ v = 2 \/ v = 3) as [E|[E|[E|E]]]
    by (clear - H; lia); subst v; clear H.

(** ** The encoder on the sample headers *)

Example ToBytes_hdr_plain :
  ToBytes bitsToByte hdr_plain
  = (([1; 0; 0; 11; 0; 3; 0; 1; 0; 1; 100; 0; 200; 0; 5; 202], None),
     set_HCS hdr_plain 202).
Proof. reflexivity. Qed.

Example ToBytes_hdr_full :
  ToBytes bitsToByte hdr_full
  = (([1; 7; 190; 16; 0; 1; 2; 255; 255; 1; 2; 1; 4; 3; 9; 202], None),
     set_HCS hdr_full 202).
Proof. reflexivity. Qed.

Example ToBytes_hdr_pr4 :
  ToBytes bitsToByte hdr_pr4 = (([], Some InvalidField), hdr_pr4).
Proof. reflexivity. Qed.

(** ** Little-endian bytes *)

Lemma byte_of_mod (v : N) : byte_of v = v mod 256.
Proof.
  unfold byte_of. change 255 with (N.ones 8).
  now rewrite N.land_ones.
Qed.

Lemma byte_of_high (v : N) : is_uint16 v -> byte_of (N.shiftr v 8) = v / 256.
Proof.
  unfold is_uint16. intros Hv.
  rewrite byte_of_mod, N.shiftr_div_pow2. change (2 ^ 8) with 256.
  apply N.mod_small, N.Div0.div_lt_upper_bound. lia.
Qed.

Lemma PutUint16_div_mod (v : N) :
  is_uint16 v -> PutUint16 v = [v mod 256; v / 256].
Proof.
  intros Hv. unfold PutUint16. now rewrite byte_of_mod, byte_of_high.
Qed.

(** ** Length of a formatted bit field *)

Lemma length_append (s1 s2 : string) :
  String.length (s1 ++ s2) = (String.length s1 + String.length s2)%nat.
Proof.
  induction s1 as [|c s1 IH]; simpl; [reflexivity | now rewrite IH].
Qed.

Lemma length_zeros (n : nat) : String.length (zeros n) = n.
Proof. induction n as [|n IH]; simpl; congruence. Qed.

Lemma length_pos_digits (p : positive) (acc : string) :
  String.length (pos_digits p acc) = (Pos.size_nat p + String.length acc)%nat.
Proof.
  revert acc. induction p as [q IH|q IH|]; intros acc; simpl;
    try rewrite IH; simpl; lia.
Qed.

Lemma size_nat_overflow (w : nat) :
  forall p : positive, 2 ^ N.of_nat w <= Npos p -> (w < Pos.size_nat p)%nat.
Proof.
  induction w as [|w IH]; intros p Hp.
  - destruct p; simpl; lia.
  - rewrite Nat2N.inj_succ, N.pow_succ_r' in Hp.
    destruct p as [q|q|]; simpl.
    + assert (w < Pos.size_nat q)%nat by (apply IH; lia). lia.
    + assert (w < Pos.size_nat q)%nat by (apply IH; lia). lia.
    + assert (0 < 2 ^ N.of_nat w) by (apply N.neq_0_lt_0, N.pow_nonzero; lia).
      lia.
Qed.

Lemma length_fmt_0b (w : nat) (v : N) :
  String.length (fmt_0b w v) = Nat.max w (String.length (fmt_b v)).
Proof.
  unfold fmt_0b. rewrite length_append, length_zeros. lia.
Qed.

Lemma length_fmt_0b_overflow (w : nat) (v : N) :
  2 ^ N.of_nat w <= v -> (w < String.length (fmt_0b w v))%nat.
Proof.
  intros Hv. rewrite length_fmt_0b.
  destruct v as [|p].
  - exfalso.
    assert (0 < 2 ^ N.of_nat w) by (apply N.neq_0_lt_0, N.pow_nonzero; lia).
    lia.
  - simpl. rewrite length_pos_digits. apply size_nat_overflow in Hv.
    simpl. lia.
Qed.

Lemma length_fmt_0b_min (w : nat) (v : N) :
  (w <= String.length (fmt_0b w v))%nat.
Proof. rewrite length_fmt_0b. lia. Qed.

Lemma length_Sprintf_flags (prf rte ena cmp pr : N) :
  String.length (Sprintf_flags prf rte ena cmp pr)
  = (String.length (fmt_0b 2 prf) + String.length (fmt_0b 1 rte)
     + String.length (fmt_0b 2 ena) + String.length (fmt_0b 1 cmp)
     + String.length (fmt_0b 2 pr))%nat.
Proof. unfold Sprintf_flags. rewrite !length_append. lia. Qed.

Lemma Sprintf_flags_overflow (prf rte ena cmp pr : N) :
  3 < prf \/ 1 < rte \/ 3 < ena \/ 1 < cmp \/ 3 < pr ->
  (8 < String.length (Sprintf_flags prf rte ena cmp pr))%nat.
Proof.
  intros H. rewrite length_Sprintf_flags.
  pose proof (length_fmt_0b_min 2 prf). pose proof (length_fmt_0b_min 1 rte).
  pose proof (length_fmt_0b_min 2 ena). pose proof (length_fmt_0b_min 1 cmp).
  pose proof (length_fmt_0b_min 2 pr).
  destruct H as [H|[H|[H|[H|H]]]].
  - assert (2 < String.length (fmt_0b 2 prf))%nat
      by (apply length_fmt_0b_overflow; simpl; lia). lia.
  - assert (1 < String.length (fmt_0b 1 rte))%nat
      by (apply length_fmt_0b_overflow; simpl; lia). lia.
  - assert (2 < String.length (fmt_0b 2 ena))%nat
      by (apply length_fmt_0b_overflow; simpl; lia). lia.
  - assert (1 < String.length (fmt_0b 1 cmp))%nat
      by (apply length_fmt_0b_overflow; simpl; lia). lia.
  - assert (2 < String.length (fmt_0b 2 pr))%nat
      by (apply length_fmt_0b_overflow; simpl; lia). lia.
Qed.

(** ** The modelled helper on the strings [ToBytes] builds *)

Lemma bitsToByte_long (s : string) :
  (8 < String.length s)%nat -> bitsToByte s = inl InvalidField.
Proof.
  intros Hs. unfold bitsToByte.
  destruct (Nat.eqb_spec (String.length s) 8) as [E|_]; [lia | reflexivity].
Qed.

Lemma bitsToByte_flags (prf rte ena cmp pr : N) :
  prf <= 3 -> rte <= 1 -> ena <= 3 -> cmp <= 1 -> pr <= 3 ->
  bitsToByte (Sprintf_flags prf rte ena cmp pr)
  = inr (prf * 64 + rte * 32 + ena * 8 + cmp * 4 + pr).
Proof.
  intros Hprf Hrte Hena Hcmp Hpr.
  split_le3 prf Hprf; split_le1 rte Hrte; split_le3 ena Hena;
    split_le1 cmp Hcmp; split_le3 pr Hpr; reflexivity.
Qed.

(** ** What [ToBytes] returns, for any [bitsToByte] *)

Section AnyHelper.

Variable conv : string -> error + N.

Lemma ToBytes_ok (h : EgtsPkgHeader) (flagByte : N) :
  conv (flags_of h) = inr flagByte ->
  ToBytes conv h
  = ((written_before_HCS flagByte h ++ [202], None), set_HCS h 202).
Proof.
  intros E. unfold ToBytes, ToBytes_body, bind, gets, checked.
  fold (flags_of h). rewrite E. reflexivity.
Qed.

Lemma ToBytes_err (h : EgtsPkgHeader) (e : error) :
  conv (flags_of h) = inl e -> ToBytes conv h = (([], Some e), h).
Proof.
  intros E. unfold ToBytes, ToBytes_body, bind, gets, checked.
  fold (flags_of h). rewrite E. reflexivity.
Qed.

Lemma ToBytes_inv_ok (h h' : EgtsPkgHeader) (bs : list N) :
  ToBytes conv h = ((bs, None), h') ->
  exists flagByte,
    conv (flags_of h) = inr flagByte
    /\ bs = written_before_HCS flagByte h ++ [202]
    /\ h' = set_HCS h 202.
Proof.
  intros E. destruct (conv (flags_of h)) as [e|flagByte] eqn:Ec.
  - rewrite (ToBytes_err h e Ec) in E. discriminate.
  - rewrite (ToBytes_ok h flagByte Ec) in E. inversion E; subst.
    exists flagByte. auto.
Qed.

Lemma ToBytes_inv_err (h h' : EgtsPkgHeader) (bs : list N) (e : error) :
  ToBytes conv h = ((bs, Some e), h') ->
  conv (flags_of h) = inl e /\ bs = [] /\ h' = h.
Proof.
  intros E. destruct (conv (flags_of h)) as [e0|flagByte] eqn:Ec.
  - rewrite (ToBytes_err h e0 Ec) in E. inversion E; subst. auto.
  - rewrite (ToBytes_ok h flagByte Ec) in E. discriminate.
Qed.

(** C1: the HCS byte that [ToBytes] appends is the constant 202 that the
    stub [CalcCRC8] stores: for any two headers that encode successfully the
    appended HCS bytes are equal, so the byte is not a checksum of the
    bytes written before it. *)
Theorem ToBytes_HCS_constant (h1 h2 h1' h2' : EgtsPkgHeader)
    (bs1 bs2 : list N) :
  ToBytes conv h1 = ((bs1, None), h1') ->
  ToBytes conv h2 = ((bs2, None), h2') ->
  last bs1 0 = 202 /\ last bs2 0 = 202 /\ last bs1 0 = last bs2 0.
Proof.
  intros E1 E2.
  apply ToBytes_inv_ok in E1 as (f1 & _ & -> & _).
  apply ToBytes_inv_ok in E2 as (f2 & _ & -> & _).
  rewrite !last_last. auto.
Qed.

(** C2: whatever the value of RTE, a successful [ToBytes] writes the bytes
    of PRA, RCA and TTL between PT (offset 9) and HCS: the output from
    offset 10 on is PRA (LE), RCA (LE), TTL and the HCS byte. *)
Theorem ToBytes_routing_unconditional (h h' : EgtsPkgHeader) (bs : list N) :
  ToBytes conv h = ((bs, None), h') ->
  skipn 10 bs = PutUint16 (PRA h) ++ PutUint16 (RCA h) ++ [TTL h; 202].
Proof.
  intros E. apply ToBytes_inv_ok in E as (f & _ & -> & _). reflexivity.
Qed.

(** C3 (amended): for every header with RTE=1 that [ToBytes] encodes
    successfully, the returned slice has 16 bytes: the ten bytes PRV..PT,
    the five bytes of PRA, RCA and TTL, and HCS. *)
Theorem ToBytes_length_routed (h h' : EgtsPkgHeader) (bs : list N) :
  RTE h = 1 ->
  ToBytes conv h = ((bs, None), h') ->
  List.length bs = 16%nat.
Proof.
  intros _ E. apply ToBytes_inv_ok in E as (f & _ & -> & _). reflexivity.
Qed.

(** C5 (amended): [ToBytes] does not compare HL with RTE.  Whenever a
    header encodes successfully, the same header with any other value of HL
    encodes successfully too, and the HL value given is the byte at
    offset 3 of the output. *)
Theorem ToBytes_HL_unchecked (h h' : EgtsPkgHeader) (bs : list N) (hl : N) :
  ToBytes conv h = ((bs, None), h') ->
  exists bs',
    ToBytes conv (set_HL h hl) = ((bs', None), set_HL h' hl)
    /\ nth_error bs' 3 = Some hl.
Proof.
  intros E. apply ToBytes_inv_ok in E as (f & Ec & _ & ->).
  exists (written_before_HCS f (set_HL h hl) ++ [202]). split.
  - apply ToBytes_ok. exact Ec.
  - reflexivity.
Qed.

(** C7: on a successful encoding the first ten bytes are PRV, SKID, the
    flags byte returned by [bitsToByte], HL, HE, FDL low byte, FDL high
    byte, PID low byte, PID high byte and PT; byte 7 is PID mod 256 and
    byte 8 is PID div 256 for every PID in 0..65535. *)
Theorem ToBytes_fixed_prefix (h h' : EgtsPkgHeader) (bs : list N) :
  wf_header h ->
  ToBytes conv h = ((bs, None), h') ->
  exists flagByte,
    conv (flags_of h) = inr flagByte
    /\ firstn 10 bs
       = [PRV h; SKID h; flagByte; HL h; HE h; FDL h mod 256; FDL h / 256;
          PID h mod 256; PID h / 256; PT h]
    /\ nth_error bs 7 = Some (PID h mod 256)
    /\ nth_error bs 8 = Some (PID h / 256).
Proof.
  intros W E. apply ToBytes_inv_ok in E as (f & Ec & -> & _).
  exists f. split; [exact Ec|].
  unfold written_before_HCS.
  rewrite (PutUint16_div_mod (FDL h) (wf_FDL h W)).
  rewrite (PutUint16_div_mod (PID h) (wf_PID h W)).
  repeat split.
Qed.

(** C9: after a successful call the receiver's HCS field holds the
    checksum value that [CalcCRC8] computed (the byte appended last to the
    output), and every other field is as it was before the call. *)
Theorem ToBytes_receiver_frame (h h' : EgtsPkgHeader) (bs : list N) :
  ToBytes conv h = ((bs, None), h') ->
  h' = snd (CalcCRC8 h)
  /\ HCS h' = last bs 0
  /\ PRV h' = PRV h /\ SKID h' = SKID h /\ PRF h' = PRF h
  /\ RTE h' = RTE h /\ ENA h' = ENA h /\ CMP h' = CMP h /\ PR h' = PR h
  /\ HL h' = HL h /\ HE h' = HE h /\ FDL h' = FDL h /\ PID h' = PID h
  /\ PT h' = PT h /\ PRA h' = PRA h /\ RCA h' = RCA h /\ TTL h' = TTL h.
Proof.
  intros E. apply ToBytes_inv_ok in E as (f & _ & -> & ->).
  rewrite last_last. repeat split.
Qed.

(** C10: whenever [ToBytes] returns a non-nil error, the slice it returns
    is empty. *)
Theorem ToBytes_error_empty (h h' : EgtsPkgHeader) (bs : list N)
    (e : error) :
  ToBytes conv h = ((bs, Some e), h') ->
  bs = [] /\ List.length bs = 0%nat.
Proof.
  intros E. apply ToBytes_inv_err in E as (_ & -> & _). auto.
Qed.

End AnyHelper.

(** ** The encoder with the modelled [bitsToByte] *)

(** C4: when a bit-field value exceeds its width (PRF > 3, RTE > 1, ENA > 3,
    CMP > 1 or PR > 3) the encoding fails with [InvalidField], returns no
    bytes and leaves the receiver as it was. *)
Theorem ToBytes_bitfield_overflow (h : EgtsPkgHeader) :
  3 < PRF h \/ 1 < RTE h \/ 3 < ENA h \/ 1 < CMP h \/ 3 < PR h ->
  ToBytes bitsToByte h = (([], Some InvalidField), h).
Proof.
  intros H. apply ToBytes_err, bitsToByte_long.
  unfold flags_of. now apply Sprintf_flags_overflow.
Qed.

(** C6: when the bit-field values are in range, the encoding succeeds and
    the byte at offset 2 is PRF*64 + RTE*32 + ENA*8 + CMP*4 + PR. *)
Theorem ToBytes_flags_byte (h : EgtsPkgHeader) :
  PRF h <= 3 -> RTE h <= 1 -> ENA h <= 3 -> CMP h <= 1 -> PR h <= 3 ->
  exists bs h',
    ToBytes bitsToByte h = ((bs, None), h')
    /\ nth_error bs 2
       = Some (PRF h * 64 + RTE h * 32 + ENA h * 8 + CMP h * 4 + PR h).
Proof.
  intros Hprf Hrte Hena Hcmp Hpr.
  eexists. eexists. split.
  - apply ToBytes_ok. unfold flags_of.
    apply bitsToByte_flags; assumption.
  - reflexivity.
Qed.

(** ** The theorems at the sample headers *)

(** Two headers whose bytes before HCS differ (the packet identifier) and
    whose HCS bytes are both 202. *)
Lemma ToBytes_HCS_constant_witness :
  removelast [1; 0; 0; 11; 0; 3; 0; 1; 0; 1; 100; 0; 200; 0; 5; 202]
  <> removelast [1; 0; 0; 11; 0; 3; 0; 2; 0; 1; 100; 0; 200; 0; 5; 202]
  /\ (last [1; 0; 0; 11; 0; 3; 0; 1; 0; 1; 100; 0; 200; 0; 5; 202] 0 = 202
      /\ last [1; 0; 0; 11; 0; 3; 0; 2; 0; 1; 100; 0; 200; 0; 5; 202] 0 = 202
      /\ last [1; 0; 0; 11; 0; 3; 0; 1; 0; 1; 100; 0; 200; 0; 5; 202] 0
         = last [1; 0; 0; 11; 0; 3; 0; 2; 0; 1; 100; 0; 200; 0; 5; 202] 0).
Proof.
  split; [discriminate|].
  apply (ToBytes_HCS_constant bitsToByte hdr_plain hdr_plain2
           (set_HCS hdr_plain 202) (set_HCS hdr_plain2 202)); reflexivity.
Defined.

(** With RTE=0 the routing bytes 100,0 200,0 5 follow PT all the same. *)
Lemma ToBytes_routing_unconditional_witness :
  RTE hdr_plain = 0
  /\ skipn 10 [1; 0; 0; 11; 0; 3; 0; 1; 0; 1; 100; 0; 200; 0; 5; 202]
     = PutUint16 100 ++ PutUint16 200 ++ [5; 202].
Proof.
  split; [reflexivity|].
  apply (ToBytes_routing_unconditional bitsToByte hdr_plain
           (set_HCS hdr_plain 202)); reflexivity.
Defined.

(** C3, as stated, fails: a header with RTE=1 encodes to 16 bytes, not 14. *)
Lemma ToBytes_routed_length_not_14 :
  RTE hdr_routed = 1
  /\ ToBytes bitsToByte hdr_routed
     = (([1; 0; 32; 14; 0; 3; 0; 1; 0; 1; 100; 0; 200; 0; 5; 202], None),
        set_HCS hdr_routed 202)
  /\ List.length [1; 0; 32; 14; 0; 3; 0; 1; 0; 1; 100; 0; 200; 0; 5; 202]
     <> 14%nat.
Proof. repeat split. discriminate. Qed.

Lemma ToBytes_length_routed_witness :
  List.length [1; 0; 32; 14; 0; 3; 0; 1; 0; 1; 100; 0; 200; 0; 5; 202]
  = 16%nat.
Proof.
  apply (ToBytes_length_routed bitsToByte hdr_routed
           (set_HCS hdr_routed 202)); reflexivity.
Defined.

(** C5, as stated, fails: with RTE=0 and HL=99 the encoding succeeds and
    carries the byte 99 at offset 3. *)
Lemma ToBytes_accepts_mismatched_HL :
  RTE hdr_hl99 = 0 /\ HL hdr_hl99 <> 11 /\ HL hdr_hl99 <> 14
  /\ ToBytes bitsToByte hdr_hl99
     = (([1; 0; 0; 99; 0; 3; 0; 1; 0; 1; 100; 0; 200; 0; 5; 202], None),
        set_HCS hdr_hl99 202).
Proof. repeat split; discriminate. Qed.

Lemma ToBytes_HL_unchecked_witness :
  exists bs',
    ToBytes bitsToByte (set_HL hdr_plain 99)
    = ((bs', None), set_HL (set_HCS hdr_plain 202) 99)
    /\ nth_error bs' 3 = Some 99.
Proof.
  apply (ToBytes_HL_unchecked bitsToByte hdr_plain (set_HCS hdr_plain 202)
           [1; 0; 0; 11; 0; 3; 0; 1; 0; 1; 100; 0; 200; 0; 5; 202] 99).
  reflexivity.
Defined.

(** PID = 65535 is written as 255, 255 and FDL = 513 as 1, 2. *)
Lemma ToBytes_fixed_prefix_witness :
  exists flagByte,
    bitsToByte (flags_of hdr_full) = inr flagByte
    /\ firstn 10 [1; 7; 190; 16; 0; 1; 2; 255; 255; 1; 2; 1; 4; 3; 9; 202]
       = [1; 7; flagByte; 16; 0; 513 mod 256; 513 / 256; 65535 mod 256;
          65535 / 256; 1]
    /\ nth_error [1; 7; 190; 16; 0; 1; 2; 255; 255; 1; 2; 1; 4; 3; 9; 202] 7
       = Some (65535 mod 256)
    /\ nth_error [1; 7; 190; 16; 0; 1; 2; 255; 255; 1; 2; 1; 4; 3; 9; 202] 8
       = Some (65535 / 256).
Proof.
  apply (ToBytes_fixed_prefix bitsToByte hdr_full (set_HCS hdr_full 202)).
  - constructor; reflexivity.
  - reflexivity.
Defined.

Lemma ToBytes_receiver_frame_witness :
  set_HCS hdr_full 202 = snd (CalcCRC8 hdr_full)
  /\ HCS (set_HCS hdr_full 202)
     = last [1; 7; 190; 16; 0; 1; 2; 255; 255; 1; 2; 1; 4; 3; 9; 202] 0
  /\ PRV (set_HCS hdr_full 202) = 1 /\ SKID (set_HCS hdr_full 202) = 7
  /\ PRF (set_HCS hdr_full 202) = 2 /\ RTE (set_HCS hdr_full 202) = 1
  /\ ENA (set_HCS hdr_full 202) = 3 /\ CMP (set_HCS hdr_full 202) = 1
  /\ PR (set_HCS hdr_full 202) = 2 /\ HL (set_HCS hdr_full 202) = 16
  /\ HE (set_HCS hdr_full 202) = 0 /\ FDL (set_HCS hdr_full 202) = 513
  /\ PID (set_HCS hdr_full 202) = 65535 /\ PT (set_HCS hdr_full 202) = 1
  /\ PRA (set_HCS hdr_full 202) = 258 /\ RCA (set_HCS hdr_full 202) = 772
  /\ TTL (set_HCS hdr_full 202) = 9.
Proof.
  apply (ToBytes_receiver_frame bitsToByte hdr_full (set_HCS hdr_full 202)
           [1; 7; 190; 16; 0; 1; 2; 255; 255; 1; 2; 1; 4; 3; 9; 202]).
  reflexivity.
Defined.

(** The priority 4 makes the encoder return an error and no bytes. *)
Lemma ToBytes_error_empty_witness :
  ToBytes bitsToByte hdr_pr4 = (([], Some InvalidField), hdr_pr4)
  /\ (@nil N = [] /\ List.length (@nil N) = 0%nat).
Proof.
  split; [reflexivity|].
  apply (ToBytes_error_empty bitsToByte hdr_pr4 hdr_pr4 [] InvalidField).
  reflexivity.
Defined.

Lemma ToBytes_bitfield_overflow_witness :
  PR hdr_pr4 = 4
  /\ ToBytes bitsToByte hdr_pr4 = (([], Some InvalidField), hdr_pr4).
Proof.
  split; [reflexivity|].
  apply (ToBytes_bitfield_overflow hdr_pr4).
  right; right; right; right. reflexivity.
Defined.

(** PRF=2, RTE=1, ENA=3, CMP=1, PR=2 pack to 10111110, that is 190. *)
Lemma ToBytes_flags_byte_witness :
  exists bs h',
    ToBytes bitsToByte hdr_full = ((bs, None), h')
    /\ nth_error bs 2 = Some 190.
Proof.
  apply (ToBytes_flags_byte hdr_full); discriminate.
Defined.

(** ** The string of bit fields that [ToBytes] formats *)

Lemma only_bits_append (s1 s2 : string) :
  only_bits (s1 ++ s2) = only_bits s1 && only_bits s2.
Proof.
  induction s1 as [|c s1 IH]; simpl; [reflexivity|].
  rewrite IH. now rewrite andb_assoc.
Qed.

Lemma only_bits_zeros (n : nat) : only_bits (zeros n) = true.
Proof. induction n as [|n IH]; simpl; [reflexivity | exact IH]. Qed.

Lemma only_bits_pos_digits (p : positive) :
  forall acc, only_bits acc = true -> only_bits (pos_digits p acc) = true.
Proof.
  induction p as [q IH|q IH|]; intros acc Hacc; simpl.
  - apply IH. simpl. exact Hacc.
  - apply IH. simpl. exact Hacc.
  - exact Hacc.
Qed.

Lemma only_bits_fmt_0b (w : nat) (v : N) : only_bits (fmt_0b w v) = true.
Proof.
  unfold fmt_0b. rewrite only_bits_append, only_bits_zeros. simpl.
  destruct v as [|p]; simpl; [reflexivity|].
  now apply only_bits_pos_digits.
Qed.

Lemma fmt_0b_2_inj (a b : N) (s t : string) :
  a <= 3 -> b <= 3 ->
  (fmt_0b 2 a ++ s)%string = (fmt_0b 2 b ++ t)%string -> a = b /\ s = t.
Proof.
  intros Ha Hb. split_le3 a Ha; split_le3 b Hb; simpl; intros E;
    inversion E; auto.
Qed.

Lemma fmt_0b_1_inj (a b : N) (s t : string) :
  a <= 1 -> b <= 1 ->
  (fmt_0b 1 a ++ s)%string = (fmt_0b 1 b ++ t)%string -> a = b /\ s = t.
Proof.
  intros Ha Hb. split_le1 a Ha; split_le1 b Hb; simpl; intros E;
    inversion E; auto.
Qed.

Lemma fmt_0b_2_inj_last (a b : N) :
  a <= 3 -> b <= 3 -> fmt_0b 2 a = fmt_0b 2 b -> a = b.
Proof.
  intros Ha Hb. split_le3 a Ha; split_le3 b Hb; simpl; intros E;
    inversion E; auto.
Qed.

Lemma length_Sprintf_flags_fit (prf rte ena cmp pr : N) :
  bit_fields_fit prf rte ena cmp pr ->
  String.length (Sprintf_flags prf rte ena cmp pr) = 8%nat.
Proof.
  intros (Hprf & Hrte & Hena & Hcmp & Hpr).
  split_le3 prf Hprf; split_le1 rte Hrte; split_le3 ena Hena;
    split_le1 cmp Hcmp; split_le3 pr Hpr; reflexivity.
Qed.

(** X7: the string [ToBytes] formats from PRF, RTE, ENA, CMP and PR never
    has fewer than eight characters, and has exactly eight if and only if
    every field is within its width (PRF, ENA, PR at most 3; RTE, CMP at
    most 1). *)
Theorem Sprintf_flags_length (prf rte ena cmp pr : N) :
  (8 <= String.length (Sprintf_flags prf rte ena cmp pr))%nat
  /\ (String.length (Sprintf_flags prf rte ena cmp pr) = 8%nat
      <-> bit_fields_fit prf rte ena cmp pr).
Proof.
  split.
  - rewrite length_Sprintf_flags.
    pose proof (length_fmt_0b_min 2 prf). pose proof (length_fmt_0b_min 1 rte).
    pose proof (length_fmt_0b_min 2 ena). pose proof (length_fmt_0b_min 1 cmp).
    pose proof (length_fmt_0b_min 2 pr). lia.
  - split.
    + intros L. unfold bit_fields_fit.
      destruct (N.le_gt_cases prf 3) as [Hprf|Hprf];
      destruct (N.le_gt_cases rte 1) as [Hrte|Hrte];
      destruct (N.le_gt_cases ena 3) as [Hena|Hena];
      destruct (N.le_gt_cases cmp 1) as [Hcmp|Hcmp];
      destruct (N.le_gt_cases pr 3) as [Hpr|Hpr];
      try (repeat split; assumption);
      exfalso;
      assert (8 < String.length (Sprintf_flags prf rte ena cmp pr))%nat
        by (apply Sprintf_flags_overflow; tauto);
      lia.
    + apply length_Sprintf_flags_fit.
Qed.

(** X8: on bit fields that fit their widths the formatted string determines
    all five fields: two in-range field tuples with the same string are
    equal. *)
Theorem Sprintf_flags_injective (prf rte ena cmp pr prf' rte' ena' cmp' pr' : N) :
  bit_fields_fit prf rte ena cmp pr ->
  bit_fields_fit prf' rte' ena' cmp' pr' ->
  Sprintf_flags prf rte ena cmp pr = Sprintf_flags prf' rte' ena' cmp' pr' ->
  prf = prf' /\ rte = rte' /\ ena = ena' /\ cmp = cmp' /\ pr = pr'.
Proof.
  intros (H1 & H2 & H3 & H4 & H5) (H1' & H2' & H3' & H4' & H5') E.
  unfold Sprintf_flags in E.
  apply fmt_0b_2_inj in E as [Eprf E]; [|assumption|assumption].
  apply fmt_0b_1_inj in E as [Erte E]; [|assumption|assumption].
  apply fmt_0b_2_inj in E as [Eena E]; [|assumption|assumption].
  apply fmt_0b_1_inj in E as [Ecmp E]; [|assumption|assumption].
  apply fmt_0b_2_inj_last in E; [|assumption|assumption].
  auto.
Qed.

(** X9: whatever the field values, the formatted string holds no character
    other than 0 and 1. *)
Theorem Sprintf_flags_only_bits (prf rte ena cmp pr : N) :
  only_bits (Sprintf_flags prf rte ena cmp pr) = true.
Proof.
  unfold Sprintf_flags.
  rewrite !only_bits_append, !only_bits_fmt_0b. reflexivity.
Qed.

(** ** More on what [ToBytes] returns, for any [bitsToByte] *)

Section AnyHelperMore.

Variable conv : string -> error + N.

(** X1: the conversion of the bit-field string is the only step of
    [ToBytes] that can fail: [ToBytes] returns an error exactly when
    [bitsToByte] does on that string, and then returns that very error. *)
Theorem ToBytes_error_is_helper_error (h : EgtsPkgHeader) :
  snd (fst (ToBytes conv h))
  = match conv (flags_of h) with
    | inl e => Some e
    | inr _ => None
    end.
Proof.
  destruct (conv (flags_of h)) as [e|flagByte] eqn:Ec.
  - now rewrite (ToBytes_err conv h e Ec).
  - now rewrite (ToBytes_ok conv h flagByte Ec).
Qed.

(** X2: when [ToBytes] returns an error the receiver is left as it was: the
    error return comes before [CalcCRC8], so HCS is not overwritten. *)
Theorem ToBytes_error_receiver_unchanged (h h' : EgtsPkgHeader)
    (bs : list N) (e : error) :
  ToBytes conv h = ((bs, Some e), h') -> h' = h.
Proof.
  intros E. apply ToBytes_inv_err in E as (_ & _ & ->). reflexivity.
Qed.

(** X3: every successful output has 16 bytes, whatever RTE and HL are. *)
Theorem ToBytes_length_16 (h h' : EgtsPkgHeader) (bs : list N) :
  ToBytes conv h = ((bs, None), h') -> List.length bs = 16%nat.
Proof.
  intros E. apply ToBytes_inv_ok in E as (f & _ & -> & _). reflexivity.
Qed.

(** X4: a second call on the receiver that a successful call left returns
    the same bytes again and leaves the receiver as it is. *)
Theorem ToBytes_twice (h h' : EgtsPkgHeader) (bs : list N) :
  ToBytes conv h = ((bs, None), h') -> ToBytes conv h' = ((bs, None), h').
Proof.
  intros E. apply ToBytes_inv_ok in E as (f & Ec & -> & ->).
  apply (ToBytes_ok conv (set_HCS h 202) f). exact Ec.
Qed.

(** X5: the HCS value the caller put in the header is never read: the
    bytes and the error returned are the same for any HCS given. *)
Theorem ToBytes_ignores_HCS (h : EgtsPkgHeader) (v : N) :
  fst (ToBytes conv (set_HCS h v)) = fst (ToBytes conv h).
Proof.
  destruct (conv (flags_of h)) as [e|flagByte] eqn:Ec.
  - rewrite (ToBytes_err conv h e Ec).
    now rewrite (ToBytes_err conv (set_HCS h v) e Ec).
  - rewrite (ToBytes_ok conv h flagByte Ec).
    now rewrite (ToBytes_ok conv (set_HCS h v) flagByte Ec).
Qed.

(** X6: the byte-aligned fields can be read back from the output: two
    headers within their types' ranges that encode to the same bytes agree
    on PRV, SKID, HL, HE, FDL, PID, PT, PRA, RCA and TTL, and their
    bit-field strings were converted to the same flags byte. *)
Theorem ToBytes_injective_fields (h1 h2 h1' h2' : EgtsPkgHeader)
    (bs : list N) :
  wf_header h1 -> wf_header h2 ->
  ToBytes conv h1 = ((bs, None), h1') ->
  ToBytes conv h2 = ((bs, None), h2') ->
  PRV h1 = PRV h2 /\ SKID h1 = SKID h2 /\ HL h1 = HL h2 /\ HE h1 = HE h2
  /\ FDL h1 = FDL h2 /\ PID h1 = PID h2 /\ PT h1 = PT h2
  /\ PRA h1 = PRA h2 /\ RCA h1 = RCA h2 /\ TTL h1 = TTL h2
  /\ conv (flags_of h1) = conv (flags_of h2).
Proof.
  intros W1 W2 E1 E2.
  apply ToBytes_inv_ok in E1 as (f1 & Ec1 & -> & _).
  apply ToBytes_inv_ok in E2 as (f2 & Ec2 & E & _).
  unfold written_before_HCS in E.
  rewrite (PutUint16_div_mod _ (wf_FDL _ W1)) in E.
  rewrite (PutUint16_div_mod _ (wf_PID _ W1)) in E.
  rewrite (PutUint16_div_mod _ (wf_PRA _ W1)) in E.
  rewrite (PutUint16_div_mod _ (wf_RCA _ W1)) in E.
  rewrite (PutUint16_div_mod _ (wf_FDL _ W2)) in E.
  rewrite (PutUint16_div_mod _ (wf_PID _ W2)) in E.
  rewrite (PutUint16_div_mod _ (wf_PRA _ W2)) in E.
  rewrite (PutUint16_div_mod _ (wf_RCA _ W2)) in E.
  simpl in E. inversion E as [[EPRV ESKID Ef EHL EHE Ef0 Ef1 Ep0 Ep1 EPT
                                 Ea0 Ea1 Er0 Er1 ETTL]].
  assert (join : forall a b, a mod 256 = b mod 256 -> a / 256 = b / 256 ->
                             a = b).
  { intros a b Em Ed.
    rewrite (N.div_mod a 256), (N.div_mod b 256) by discriminate.
    now rewrite Em, Ed. }
  repeat split; auto.
  rewrite Ec1, Ec2. now subst.
Qed.

End AnyHelperMore.

(** ** The further theorems at the sample headers *)

(** The failed call on the priority 4 leaves HCS at 0. *)
Lemma ToBytes_error_receiver_unchanged_witness :
  ToBytes bitsToByte hdr_pr4 = (([], Some InvalidField), hdr_pr4)
  /\ hdr_pr4 = hdr_pr4.
Proof.
  split; [reflexivity|].
  apply (ToBytes_error_receiver_unchanged bitsToByte hdr_pr4 hdr_pr4 []
           InvalidField).
  reflexivity.
Defined.

(** A header with RTE=0 and HL=11 gives 16 bytes. *)
Lemma ToBytes_length_16_witness :
  List.length [1; 0; 0; 11; 0; 3; 0; 1; 0; 1; 100; 0; 200; 0; 5; 202]
  = 16%nat.
Proof.
  apply (ToBytes_length_16 bitsToByte hdr_plain (set_HCS hdr_plain 202)).
  reflexivity.
Defined.

Lemma ToBytes_twice_witness :
  ToBytes bitsToByte (set_HCS hdr_full 202)
  = (([1; 7; 190; 16; 0; 1; 2; 255; 255; 1; 2; 1; 4; 3; 9; 202], None),
     set_HCS hdr_full 202).
Proof.
  apply (ToBytes_twice bitsToByte hdr_full). reflexivity.
Defined.

(** [hdr_full] and the same header with another HCS give the same bytes. *)
Lemma ToBytes_injective_fields_witness :
  PRV hdr_full = PRV (set_HCS hdr_full 7)
  /\ SKID hdr_full = SKID (set_HCS hdr_full 7)
  /\ HL hdr_full = HL (set_HCS hdr_full 7)
  /\ HE hdr_full = HE (set_HCS hdr_full 7)
  /\ FDL hdr_full = FDL (set_HCS hdr_full 7)
  /\ PID hdr_full = PID (set_HCS hdr_full 7)
  /\ PT hdr_full = PT (set_HCS hdr_full 7)
  /\ PRA hdr_full = PRA (set_HCS hdr_full 7)
  /\ RCA hdr_full = RCA (set_HCS hdr_full 7)
  /\ TTL hdr_full = TTL (set_HCS hdr_full 7)
  /\ bitsToByte (flags_of hdr_full)
     = bitsToByte (flags_of (set_HCS hdr_full 7)).
Proof.
  apply (ToBytes_injective_fields bitsToByte hdr_full (set_HCS hdr_full 7)
           (set_HCS hdr_full 202) (set_HCS hdr_full 202)
           [1; 7; 190; 16; 0; 1; 2; 255; 255; 1; 2; 1; 4; 3; 9; 202]).
  - constructor; reflexivity.
  - constructor; reflexivity.
  - reflexivity.
  - reflexivity.
Defined.

Lemma Sprintf_flags_injective_witness :
  Sprintf_flags 2 1 3 1 2 = "10111110"%string
  /\ (2 = 2 /\ 1 = 1 /\ 3 = 3 /\ 1 = 1 /\ 2 = 2).
Proof.
  split; [reflexivity|].
  apply (Sprintf_flags_injective 2 1 3 1 2 2 1 3 1 2).
  - unfold bit_fields_fit. repeat split; discriminate.
  - unfold bit_fields_fit. repeat split; discriminate.
  - reflexivity.
Defined.
